(** * Source-code links of the Qiskit documentation build ([docs/conf.py])

    A shallow embedding of the two functions of [docs/conf.py] that carry
    logic: [determine_github_branch], which picks the Git branch that source
    links point to, and [linkcode_resolve], which maps a documented symbol to
    a GitHub URL.

    Python values are modelled as follows.
    - [str] is [string]; characters range over the code points below 256, on
      which the regular-expression class [\d] is exactly ['0'..'9'].
    - [os.environ], [sys.modules] and the [info] dict are finite maps with
      string keys ([gmap string _]).
    - A call that may raise yields a [result]: [Return v] or [Raise e].
    - [int] is [Z]; [str(int)] is stdpp's [pretty].
    - [inspect] and [getattr] are an interface ([Inspect]) over an abstract
      type of live objects; [Interp] is the same interface over a heap that
      the operations may change. *)

From Stdlib Require Import Ascii.
From stdpp Require Import strings gmap pretty.

(** ** Outcomes of Python calls *)

Inductive exn : Type :=
  | KeyError
  | AttributeError
  | ValueError
  | TypeError
  | OSError.

Inductive result (A : Type) : Type :=
  | Return (a : A)
  | Raise (e : exn).
Arguments Return {A} a.
Arguments Raise {A} e.

#[global] Instance exn_eq_dec : EqDecision exn.
Proof. solve_decision. Defined.

#[global] Instance result_ret : MRet result := @Return.
#[global] Instance result_bind : MBind result := λ A B f r,
  match r with
  | Return a => f a
  | Raise e => Raise e
  end.

Definition returns {A} (r : result A) : Prop := ∃ a, r = Return a.
Definition raises {A} (r : result A) : Prop := ∃ e, r = Raise e.

(** ** Strings *)

(** [needle in hay]. *)
Fixpoint str_in (needle hay : string) : bool :=
  String.prefix needle hay ||
  match hay with
  | "" => false
  | String _ hay' => str_in needle hay'
  end.

(** [s.split(sep)] for a one-character separator: never empty, an empty
    field for every leading, trailing or doubled separator. *)
Fixpoint str_split (sep : ascii) (s : string) : list string :=
  match s with
  | "" => [""]
  | String c s' =>
      if Ascii.eqb c sep then "" :: str_split sep s'
      else match str_split sep s' with
           | [] => [String c ""]
           | w :: ws => String c w :: ws
           end
  end.

(** [sep.join(l)]. *)
Fixpoint str_join (sep : string) (l : list string) : string :=
  match l with
  | [] => ""
  | [w] => w
  | w :: ws => w +:+ sep +:+ str_join sep ws
  end.

(** ** The pattern [(\d+\.\d+)] *)

Definition is_digit (c : ascii) : bool :=
  match c with
  | "0" | "1" | "2" | "3" | "4" | "5" | "6" | "7" | "8" | "9" => true
  | _ => false
  end%char.

Fixpoint all_digits (s : string) : bool :=
  match s with
  | "" => true
  | String c s' => is_digit c && all_digits s'
  end.

(** The greedy [\d*] at the head of [s]: the digits taken and what is left. *)
Fixpoint take_digits (s : string) : string * string :=
  match s with
  | "" => ("", "")
  | String c s' =>
      if is_digit c
      then let '(ds, rest) := take_digits s' in (String c ds, rest)
      else ("", s)
  end.

(** [re.match(r"(\d+\.\d+)", s)]: the matched text (group 0), or [None].
    Each [\d+] is greedy, and since a digit is never a dot, giving digits
    back can not turn a failed match into a successful one. *)
Definition re_match_version (s : string) : option string :=
  match take_digits s with
  | (String _ _ as major, String "." s') =>
      match take_digits s' with
      | (String _ _ as minor, _) => Some (major +:+ "." +:+ minor)
      | _ => None
      end
  | _ => None
  end.

(** [m.group()], where [m] is the value of [re.match]: on [None] the
    attribute lookup raises. *)
Definition group (m : option string) : result string :=
  match m with
  | Some text => Return text
  | None => Raise AttributeError
  end.

(** ** Dictionaries *)

(** [d[key]]. *)
Definition getitem {V} (d : gmap string V) (key : string) : result V :=
  match d !! key with
  | Some v => Return v
  | None => Raise KeyError
  end.

(** ** Branch resolution *)

(** [determine_github_branch()], as a function of [os.environ].  The walrus
    test [if base_ref := os.environ.get("GITHUB_BASE_REF")] succeeds when the
    variable is set to a string that is not empty. *)
Definition determine_github_branch (environ : gmap string string)
  : result string :=
  if bool_decide (environ !! "GITHUB_REF_NAME" = None) then Return "main"
  else
    match environ !! "GITHUB_BASE_REF" with
    | Some (String _ _ as base_ref) => Return base_ref
    | _ =>
        ref_name ← getitem environ "GITHUB_REF_NAME";
        ref_type ← getitem environ "GITHUB_REF_TYPE";
        if String.eqb ref_type "branch" then Return ref_name
        else
          version_without_patch ← group (re_match_version ref_name);
          Return ("stable/" +:+ version_without_patch)
    end.

(** ** Pure paths (POSIX flavour of [pathlib.PurePath]) *)

(** A parsed path: its root (empty, one slash or two slashes) and
    its components. *)
Record PurePath : Type := mkPath {
  root : string;
  names : list string
}.

Fixpoint leading_slashes (s : string) : nat :=
  match s with
  | String "/" s' => S (leading_slashes s')
  | _ => 0
  end.

(** [PurePath(s)]: exactly two leading slashes are kept as the root,
    any other positive number collapses to one; empty components and
    single dots are dropped. *)
Definition path_of (s : string) : PurePath :=
  {| root := match leading_slashes s with
             | 0 => ""
             | 2 => "//"
             | _ => "/"
             end;
     names := filter (λ x, x ≠ "" ∧ x ≠ ".") (str_split "/" s) |}.

(** [p.parent]: the last component is dropped; a bare root or the empty
    path is its own parent. *)
Definition parent (p : PurePath) : PurePath :=
  {| root := root p; names := removelast (names p) |}.

(** [p] is [dir] or lies below it: same root, and the components of [dir]
    are the first components of [p]. *)
Definition under (dir p : PurePath) : Prop :=
  root p = root dir ∧ names dir `prefix_of` names p.

#[global] Instance under_dec (dir p : PurePath) : Decision (under dir p).
Proof. unfold under. apply _. Defined.

(** [p.relative_to(other)]: [p] has to be under [other]; what remains of
    it is a relative path. *)
Definition relative_to (p other : PurePath) : result PurePath :=
  if bool_decide (under other p)
  then Return {| root := ""; names := drop (length (names other)) (names p) |}
  else Raise ValueError.

(** [str(p)]. *)
Definition path_str (p : PurePath) : string :=
  match root p +:+ str_join "/" (names p) with
  | "" => "."
  | s => s
  end.

(** ** Live objects and introspection *)

(** What [linkcode_resolve] asks of the interpreter about an object.
    [getsourcefile] answers [None] when no source file can be identified and
    raises on built-in modules and classes; [getsourcelines] gives the
    source lines and the number of the first one. *)
Class Inspect (obj : Type) : Type := {
  getattr : obj → string → result obj;
  isclass : obj → bool;
  ismethod : obj → bool;
  isfunction : obj → bool;
  isbuiltin : obj → bool;
  getsourcefile : obj → result (option string);
  getsourcelines : obj → result (list string * Z)
}.

(** ** The loaded configuration module *)

(** The state of the process that [linkcode_resolve] can see: the
    environment, the table of loaded modules, the path of the configuration
    file ([__file__]) and the module global [GITHUB_BRANCH]. *)
Record process (obj : Type) : Type := mkProcess {
  os_environ : gmap string string;
  sys_modules : gmap string obj;
  conf_file : string;
  GITHUB_BRANCH : string
}.
Arguments mkProcess {obj} _ _ _ _.
Arguments os_environ {obj} _.
Arguments sys_modules {obj} _.
Arguments conf_file {obj} _.
Arguments GITHUB_BRANCH {obj} _.

Section SourceLinks.
Context {obj : Type} `{!Inspect obj}.


Definition is_valid_code_object (o : obj) : bool :=
  isclass o || ismethod o || isfunction o && negb (isbuiltin o).

(** The [for part in ...] loop from the object [o] on.  [Return None] is
    the early [return None] of the loop body, [Return (Some o')] is the
    object bound to [obj] when the loop runs to its end. *)
Fixpoint traverse (o : obj) (path : list string) : result (option obj) :=
  match path with
  | [] => Return (Some o)
  | part :: path' =>
      o' ← getattr o part;
      if is_valid_code_object o' then traverse o' path'
      else Return None
  end.

(** The [try]/[except OSError]/[else] block that builds [linespec]. *)
Definition linespec_of (o : obj) : result string :=
  match getsourcelines o with
  | Raise OSError => Return ""
  | Raise e => Raise e
  | Return (source, lineno) =>
      let ending_lineno := (lineno + Z.of_nat (length source) - 1)%Z in
      Return ("#L" +:+ pretty lineno +:+ "-L" +:+ pretty ending_lineno)
  end.

(** The repository root: two levels above the configuration file. *)
Definition repo_root (p : process obj) : PurePath :=
  parent (parent (path_of (conf_file p))).

(** From [inspect.getsourcefile(obj)] to the final [return]: the link to
    the object that the loop ended on. *)
Definition link_to_object (p : process obj) (o : obj)
  : result (option string) :=
  full_file_name ← getsourcefile o;
  match full_file_name with
  | None => Return None
  | Some full_file_name =>
      if negb (str_in "qiskit" full_file_name) then Return None
      else
        file_name ← relative_to (path_of full_file_name) (repo_root p);
        linespec ← linespec_of o;
        Return (Some ("https://github.com/Qiskit/qiskit/tree/"
                      +:+ GITHUB_BRANCH p +:+ "/"
                      +:+ path_str file_name +:+ linespec))
  end.

Definition linkcode_resolve (p : process obj) (domain : string)
    (info : gmap string string) : result (option string) :=
  if negb (String.eqb domain "py") then Return None
  else
    module_name ← getitem info "module";
    match sys_modules p !! module_name with
    | None => Return None
    | Some module =>
        fullname ← getitem info "fullname";
        target ← traverse module (str_split "." fullname);
        match target with
        | None => Return None
        | Some o => link_to_object p o
        end
    end.

(** *** Vocabulary of the specification

    The specification speaks of the traversal and of the validation as
    two separate steps.  [getattr_chain] is the traversal alone, the
    object that [module.a.b.c] denotes; [all_valid] says that every object
    met on the way, the last one included, is a valid code object. *)
Fixpoint getattr_chain (o : obj) (path : list string) : result obj :=
  match path with
  | [] => Return o
  | part :: path' => o' ← getattr o part; getattr_chain o' path'
  end.

Fixpoint all_valid (o : obj) (path : list string) : bool :=
  match path with
  | [] => true
  | part :: path' =>
      match getattr o part with
      | Return o' => is_valid_code_object o' && all_valid o' path'
      | Raise _ => false
      end
  end.

(** The link to a file on a branch, with a line-range fragment or none. *)
Definition github_url (branch : string) (file_name : PurePath)
    (linespec : string) : string :=
  "https://github.com/Qiskit/qiskit/tree/" +:+ branch +:+ "/"
  +:+ path_str file_name +:+ linespec.
End SourceLinks.

(** ** Version prefixes *)

Definition starts_with_digit (s : string) : bool :=
  match s with
  | String c _ => is_digit c
  | "" => false
  end.

(** A non-empty string of digits. *)
Definition number (s : string) : Prop := s ≠ "" ∧ all_digits s = true.

(** [s] starts with [<digits>.<digits>]. *)
Definition has_version_prefix (s : string) : Prop :=
  ∃ major minor rest,
    number major ∧ number minor ∧ s = major +:+ "." +:+ minor +:+ rest.

(** ** A small world of live objects

    A checkout of the repository in [/home/dev/qiskit], with some of its
    modules loaded next to modules that live elsewhere. *)
Module Demo.
Inductive pyobj : Type :=
  | mod_circuit        (* module qiskit.circuit *)
  | mod_library        (* module qiskit.circuit.library *)
  | cls_QuantumCircuit (* class, defined in the checkout *)
  | fn_h               (* function QuantumCircuit.h *)
  | prop_data          (* property QuantumCircuit.data *)
  | cls_XGate          (* class, defined in the checkout *)
  | fn_stripped        (* function whose source text is not on disk *)
  | cls_Target         (* class of a compiled extension: no source file *)
  | mod_installed      (* module of an installed copy of the package *)
  | cls_Backend        (* class of the installed copy *)
  | mod_numpy          (* module of another package *)
  | cls_Mixin          (* class of another package *)
  | mod_builtins       (* module builtins *)
  | fn_len.            (* the built-in function len *)

Definition attrs (o : pyobj) : list (string * pyobj) :=
  match o with
  | mod_circuit =>
      [("QuantumCircuit", cls_QuantumCircuit); ("library", mod_library);
       ("get_version", fn_stripped); ("Target", cls_Target)]
  | mod_library => [("XGate", cls_XGate)]
  | cls_QuantumCircuit => [("h", fn_h); ("data", prop_data)]
  | mod_installed => [("Backend", cls_Backend)]
  | mod_numpy => [("NDArrayOperatorsMixin", cls_Mixin)]
  | mod_builtins => [("len", fn_len)]
  | _ => []
  end.

Definition source_file (o : pyobj) : result (option string) :=
  match o with
  | cls_QuantumCircuit | fn_h | prop_data =>
      Return (Some "/home/dev/qiskit/qiskit/circuit/quantumcircuit.py")
  | cls_XGate =>
      Return (Some "/home/dev/qiskit/qiskit/circuit/library/x.py")
  | fn_stripped => Return (Some "/home/dev/qiskit/qiskit/version.py")
  | cls_Backend =>
      Return (Some "/usr/lib/python3/site-packages/qiskit/providers/backend.py")
  | cls_Mixin =>
      Return (Some "/usr/lib/python3/site-packages/numpy/lib/mixins.py")
  | cls_Target => Return None
  | mod_circuit => Return (Some "/home/dev/qiskit/qiskit/circuit/__init__.py")
  | mod_library =>
      Return (Some "/home/dev/qiskit/qiskit/circuit/library/__init__.py")
  | mod_installed =>
      Return (Some "/usr/lib/python3/site-packages/qiskit/providers/__init__.py")
  | mod_numpy =>
      Return (Some "/usr/lib/python3/site-packages/numpy/lib/__init__.py")
  | mod_builtins | fn_len => Raise TypeError
  end.

Definition source_lines (o : pyobj) : result (list string * Z) :=
  match o with
  | cls_QuantumCircuit =>
      Return (["class QuantumCircuit:"; "    @property"; "    def data(self):";
               "        return self._data"; "    def h(self, qubit):";
               "        return self.append(HGate(), [qubit])"], 47%Z)
  | fn_h =>
      Return (["    def h(self, qubit):";
               "        return self.append(HGate(), [qubit])"], 51%Z)
  | cls_XGate => Return (["class XGate(Gate):"; "    pass"], 10%Z)
  | cls_Backend => Return (["class Backend:"; "    pass"], 3%Z)
  | cls_Mixin => Return (["class NDArrayOperatorsMixin:"; "    pass"], 59%Z)
  | fn_stripped | cls_Target => Raise OSError
  | _ => Raise TypeError
  end.

#[global] Instance inspect_pyobj : Inspect pyobj := {|
  getattr o name :=
    match list_to_map (M := gmap string pyobj) (attrs o) !! name with
    | Some o' => Return o'
    | None => Raise AttributeError
    end;
  isclass o :=
    match o with
    | cls_QuantumCircuit | cls_XGate | cls_Target | cls_Backend
    | cls_Mixin => true
    | _ => false
    end;
  ismethod _ := false;
  isfunction o :=
    match o with fn_h | fn_stripped => true | _ => false end;
  isbuiltin o := match o with fn_len => true | _ => false end;
  getsourcefile := source_file;
  getsourcelines := source_lines
|}.

Definition modules : gmap string pyobj :=
  list_to_map
    [("qiskit.circuit", mod_circuit);
     ("qiskit.circuit.library", mod_library);
     ("qiskit.providers", mod_installed);
     ("numpy.lib", mod_numpy);
     ("builtins", mod_builtins)].

(** The environment of a build of the tag [1.1.0]. *)
Definition tag_build : gmap string string :=
  list_to_map [("GITHUB_REF_NAME", "1.1.0"); ("GITHUB_REF_TYPE", "tag")].

Definition proc : process pyobj :=
  mkProcess tag_build modules "/home/dev/qiskit/docs/conf.py" "stable/1.1".

(** The [info] dict of a Python symbol. *)
Definition py_info (module fullname : string) : gmap string string :=
  list_to_map [("module", module); ("fullname", fullname)].
End Demo.

(** ** Paths written out *)

(** [c] does not occur in [s]. *)
Fixpoint no_char (c : ascii) (s : string) : bool :=
  match s with
  | "" => true
  | String d s' => negb (Ascii.eqb d c) && no_char c s'
  end.

(** A component of a normalised path: not empty, not a single dot, and
    free of slashes. *)
Definition component (s : string) : Prop :=
  s ≠ "" ∧ s ≠ "." ∧ no_char "/" s = true.

(** The absolute path with the components [l], as a string. *)
Definition abs_path (l : list string) : string := "/" +:+ str_join "/" l.

(** [GITHUB_BASE_REF] is absent or empty. *)
Definition no_base_ref (environ : gmap string string) : Prop :=
  environ !! "GITHUB_BASE_REF" = None ∨ environ !! "GITHUB_BASE_REF" = Some "".

(** ** A world where introspection fails

    The module [builtins] with the built-in class [int], for which
    [inspect.getsourcefile] raises, and a package module with a class
    whose source lines can not be read for a reason other than I/O. *)
Module Failing.
Inductive pyobj : Type :=
  | mod_builtins
  | cls_int
  | mod_pkg
  | cls_odd.

#[global] Instance inspect_pyobj : Inspect pyobj := {|
  getattr o name :=
    match o with
    | mod_builtins =>
        if String.eqb name "int" then Return cls_int
        else Raise AttributeError
    | mod_pkg =>
        if String.eqb name "Odd" then Return cls_odd
        else Raise AttributeError
    | _ => Raise AttributeError
    end;
  isclass o := match o with cls_int | cls_odd => true | _ => false end;
  ismethod _ := false;
  isfunction _ := false;
  isbuiltin _ := false;
  getsourcefile o :=
    match o with
    | cls_odd => Return (Some "/home/dev/qiskit/qiskit/odd.py")
    | mod_pkg => Return (Some "/home/dev/qiskit/qiskit/__init__.py")
    | mod_builtins | cls_int => Raise TypeError
    end;
  getsourcelines _ := Raise TypeError
|}.

Definition proc : process pyobj :=
  mkProcess ∅
    (list_to_map [("builtins", mod_builtins); ("qiskit", mod_pkg)])
    "/home/dev/qiskit/docs/conf.py" "main".
End Failing.

(** ** Calls as steps of the interpreter

    Attribute access and introspection run code of the interpreter and of
    the objects: properties, lazy attributes, the cache of source lines.
    Here they are operations on a heap that they may change, and
    [linkcode_resolve] is read a second time as a function that threads
    the heap through them in the order of the source. *)

(** A computation that may raise and may change a store of type [W]. *)
Definition st (W A : Type) : Type := W → result A * W.

Definition st_ret {W A} (a : A) : st W A := λ w, (Return a, w).

Definition st_lift {W A} (r : result A) : st W A := λ w, (r, w).

Definition st_bind {W A B} (m : st W A) (k : A → st W B) : st W B :=
  λ w, match m w with
       | (Return a, w') => k a w'
       | (Raise e, w') => (Raise e, w')
       end.

(** The interpreter over a heap: [getattr], [inspect.getsourcefile] and
    [inspect.getsourcelines] act on the heap, the four kind tests read
    it. *)
Class Interp (obj heap : Type) : Type := {
  getattr_st : obj → string → st heap obj;
  isclass_st : obj → heap → bool;
  ismethod_st : obj → heap → bool;
  isfunction_st : obj → heap → bool;
  isbuiltin_st : obj → heap → bool;
  getsourcefile_st : obj → st heap (option string);
  getsourcelines_st : obj → st heap (list string * Z)
}.

(** The globals of the configuration module together with the heap. *)
Record state (obj heap : Type) : Type := mkState {
  globals : process obj;
  heap_of : heap
}.
Arguments mkState {obj heap} _ _.
Arguments globals {obj heap} _.
Arguments heap_of {obj heap} _.

Section Calls.
Context {obj heap : Type} `{!Interp obj heap}.

Definition is_valid_code_object_st (o : obj) (h : heap) : bool :=
  isclass_st o h || ismethod_st o h
  || isfunction_st o h && negb (isbuiltin_st o h).

Fixpoint traverse_st (o : obj) (path : list string) : st heap (option obj) :=
  match path with
  | [] => st_ret (Some o)
  | part :: path' =>
      st_bind (getattr_st o part) (λ o' h,
        if is_valid_code_object_st o' h then traverse_st o' path' h
        else (Return None, h))
  end.

Definition linespec_of_st (o : obj) : st heap string :=
  λ h, match getsourcelines_st o h with
       | (Raise OSError, h') => (Return "", h')
       | (Raise e, h') => (Raise e, h')
       | (Return (source, lineno), h') =>
           let ending_lineno := (lineno + Z.of_nat (length source) - 1)%Z in
           (Return ("#L" +:+ pretty lineno +:+ "-L" +:+ pretty ending_lineno),
            h')
       end.

Definition link_to_object_st (p : process obj) (o : obj)
  : st heap (option string) :=
  st_bind (getsourcefile_st o) (λ full_file_name,
    match full_file_name with
    | None => st_ret None
    | Some full_file_name =>
        if negb (str_in "qiskit" full_file_name) then st_ret None
        else
          st_bind (st_lift (relative_to (path_of full_file_name)
                                        (repo_root p))) (λ file_name,
          st_bind (linespec_of_st o) (λ linespec,
          st_ret (Some ("https://github.com/Qiskit/qiskit/tree/"
                        +:+ GITHUB_BRANCH p +:+ "/"
                        +:+ path_str file_name +:+ linespec))))
    end).

Definition linkcode_resolve_st (p : process obj) (domain : string)
    (info : gmap string string) : st heap (option string) :=
  if negb (String.eqb domain "py") then st_ret None
  else
    st_bind (st_lift (getitem info "module")) (λ module_name,
      match sys_modules p !! module_name with
      | None => st_ret None
      | Some module =>
          st_bind (st_lift (getitem info "fullname")) (λ fullname,
          st_bind (traverse_st module (str_split "." fullname)) (λ target,
            match target with
            | None => st_ret None
            | Some o => link_to_object_st p o
            end))
      end).

(** A call as a step of the process.  The body reads the globals and
    assigns none of them; the heap after the call is the one its
    operations left. *)
Definition call_linkcode_resolve (domain : string)
    (info : gmap string string) (s : state obj heap)
  : result (option string) * state obj heap :=
  let '(outcome, h) := linkcode_resolve_st (globals s) domain info (heap_of s)
  in (outcome, mkState (globals s) h).


End Calls.

(** ** A world with a lazy attribute

    The attribute [Thing] of the package is a proxy that puts the class
    in its own place when it is first looked up.  The heap records
    whether that has happened. *)
Module Lazy.
Inductive pyobj : Type :=
  | mod_pkg
  | proxy
  | cls_Thing.

Definition lookup (o : pyobj) (name : string) (loaded : bool)
  : result pyobj * bool :=
  match o with
  | mod_pkg =>
      if String.eqb name "Thing"
      then if loaded then (Return cls_Thing, loaded) else (Return proxy, true)
      else (Raise AttributeError, loaded)
  | _ => (Raise AttributeError, loaded)
  end.

Definition source_file (o : pyobj) (loaded : bool)
  : result (option string) * bool :=
  match o with
  | cls_Thing => (Return (Some "/home/dev/qiskit/qiskit/thing.py"), loaded)
  | _ => (Return None, loaded)
  end.

Definition source_lines (o : pyobj) (loaded : bool)
  : result (list string * Z) * bool :=
  match o with
  | cls_Thing => (Return (["class Thing:"; "    pass"], 12%Z), loaded)
  | _ => (Raise TypeError, loaded)
  end.

#[global] Instance interp_pyobj : Interp pyobj bool := {|
  getattr_st := lookup;
  isclass_st o _ := match o with cls_Thing => true | _ => false end;
  ismethod_st _ _ := false;
  isfunction_st _ _ := false;
  isbuiltin_st _ _ := false;
  getsourcefile_st := source_file;
  getsourcelines_st := source_lines
|}.

Definition globals_of_build : process pyobj :=
  mkProcess
    (list_to_map [("GITHUB_REF_NAME", "main"); ("GITHUB_REF_TYPE", "branch")])
    (list_to_map [("qiskit", mod_pkg)])
    "/home/dev/qiskit/docs/conf.py" "main".

Definition info : gmap string string :=
  list_to_map [("module", "qiskit"); ("fullname", "Thing")].
End Lazy.

(** * Properties *)

(** ** Strings and the version pattern *)

Lemma app_cons (c : ascii) (s t : string) :
  String c s +:+ t = String c (s +:+ t).
Proof. reflexivity. Qed.

Lemma app_empty_l (t : string) : "" +:+ t = t.
Proof. reflexivity. Qed.

Lemma dot_not_digit : is_digit "." = false.
Proof. reflexivity. Qed.

Lemma take_digits_app (ds rest : string) :
  all_digits ds = true → starts_with_digit rest = false →
  take_digits (ds +:+ rest) = (ds, rest).
Proof.
  intros Hds Hrest. induction ds as [|c ds IH].
  - rewrite app_empty_l. destruct rest as [|c rest]; [done|].
    simpl in *. by rewrite Hrest.
  - simpl in Hds. apply andb_prop in Hds as [Hc Hds].
    rewrite app_cons. simpl. rewrite Hc, (IH Hds). done.
Qed.

Lemma take_digits_spec (s ds rest : string) :
  take_digits s = (ds, rest) →
  s = ds +:+ rest ∧ all_digits ds = true ∧ starts_with_digit rest = false.
Proof.
  revert ds rest. induction s as [|c s IH]; intros ds rest Heq; simpl in Heq.
  - by inversion Heq.
  - destruct (is_digit c) eqn:Hc.
    + destruct (take_digits s) as [ds' rest'] eqn:Hs.
      inversion Heq; subst. destruct (IH _ _ eq_refl) as (-> & Hds & Hrest).
      rewrite app_cons. simpl. by rewrite Hc, Hds.
    + inversion Heq; subst. rewrite app_empty_l. simpl. by rewrite Hc.
Qed.

(** The digits taken from a string that starts with a number are at
    least that number. *)
Lemma take_digits_number (n rest : string) :
  number n → ∃ ds rest', take_digits (n +:+ rest) = (ds, rest') ∧ ds ≠ "".
Proof.
  intros [Hne Hds]. destruct n as [|c n]; [done|].
  simpl in Hds. apply andb_prop in Hds as [Hc _].
  rewrite app_cons. simpl. rewrite Hc.
  destruct (take_digits (n +:+ rest)) as [ds rest']. by eexists _, _.
Qed.

Lemma re_match_version_prefix (major minor rest : string) :
  number major → number minor → starts_with_digit rest = false →
  re_match_version (major +:+ "." +:+ minor +:+ rest)
  = Some (major +:+ "." +:+ minor).
Proof.
  intros [Hmaj Dmaj] [Hmin Dmin] Hrest. unfold re_match_version.
  rewrite (take_digits_app major) by done.
  destruct major as [|c major]; [done|].
  rewrite app_cons, app_empty_l, (take_digits_app minor) by done.
  by destruct minor.
Qed.

Lemma re_match_version_Some (s text : string) :
  re_match_version s = Some text →
  ∃ major minor rest,
    number major ∧ number minor ∧ starts_with_digit rest = false ∧
    s = major +:+ "." +:+ minor +:+ rest ∧ text = major +:+ "." +:+ minor.
Proof.
  unfold re_match_version. intros Heq.
  destruct (take_digits s) as [major s1] eqn:H1.
  destruct major as [|c major]; [done|].
  destruct s1 as [|d s1]; [done|].
  destruct d as [[] [] [] [] [] [] [] []]; try done.
  destruct (take_digits s1) as [minor rest] eqn:H2.
  destruct minor as [|c' minor]; [done|].
  apply take_digits_spec in H1 as (-> & D1 & _).
  apply take_digits_spec in H2 as (-> & D2 & Hrest).
  exists (String c major), (String c' minor), rest.
  repeat split; try done. by simplify_eq.
Qed.

Lemma re_match_version_is_Some (s : string) :
  has_version_prefix s → is_Some (re_match_version s).
Proof.
  intros (major & minor & rest & [Hmaj Dmaj] & Hmin & ->).
  unfold re_match_version. rewrite (take_digits_app major) by done.
  destruct major as [|c major]; [done|].
  rewrite app_cons, app_empty_l.
  destruct (take_digits_number minor rest Hmin) as (ds & rest' & -> & Hds).
  destruct ds; [done|]. by eexists.
Qed.

Lemma re_match_version_None (s : string) :
  re_match_version s = None ↔ ¬ has_version_prefix s.
Proof.
  split.
  - intros Hnone [text Hsome]%re_match_version_is_Some. congruence.
  - intros Hno. destruct (re_match_version s) as [text|] eqn:Heq; [|done].
    destruct Hno. apply re_match_version_Some in Heq
      as (major & minor & rest & ? & ? & _ & -> & _).
    by exists major, minor, rest.
Qed.

(** ** Branch resolution *)

Lemma getitem_Some {V} (d : gmap string V) (key : string) (v : V) :
  d !! key = Some v → getitem d key = Return v.
Proof. unfold getitem. by intros ->. Qed.

Lemma getitem_None {V} (d : gmap string V) (key : string) :
  d !! key = None → getitem d key = Raise KeyError.
Proof. unfold getitem. by intros ->. Qed.

(** The code past the two early returns, once the reference name is known
    and no base reference is given. *)
Lemma determine_github_branch_ref (environ : gmap string string)
    (ref_name : string) :
  environ !! "GITHUB_REF_NAME" = Some ref_name →
  (environ !! "GITHUB_BASE_REF" = None ∨
   environ !! "GITHUB_BASE_REF" = Some "") →
  determine_github_branch environ =
    (ref_type ← getitem environ "GITHUB_REF_TYPE";
     if String.eqb ref_type "branch" then Return ref_name
     else version_without_patch ← group (re_match_version ref_name);
          Return ("stable/" +:+ version_without_patch)).
Proof.
  intros Hname Hbase. unfold determine_github_branch.
  rewrite bool_decide_eq_false_2 by congruence.
  rewrite (getitem_Some _ _ _ Hname). by destruct Hbase as [-> | ->].
Qed.

(** C1: [determine_github_branch] decides in this order: without
    [GITHUB_REF_NAME] the answer is ["main"]; otherwise a [GITHUB_BASE_REF]
    that is set and not empty is the answer as it is; otherwise, when
    [GITHUB_REF_TYPE] is ["branch"], the answer is the value of
    [GITHUB_REF_NAME] as it is. *)
Theorem determine_github_branch_priority (environ : gmap string string) :
  (environ !! "GITHUB_REF_NAME" = None →
   determine_github_branch environ = Return "main") ∧
  (∀ base_ref,
     environ !! "GITHUB_REF_NAME" ≠ None →
     environ !! "GITHUB_BASE_REF" = Some base_ref → base_ref ≠ "" →
     determine_github_branch environ = Return base_ref) ∧
  (∀ ref_name,
     environ !! "GITHUB_REF_NAME" = Some ref_name →
     (environ !! "GITHUB_BASE_REF" = None ∨
      environ !! "GITHUB_BASE_REF" = Some "") →
     environ !! "GITHUB_REF_TYPE" = Some "branch" →
     determine_github_branch environ = Return ref_name).
Proof.
  split; [|split].
  - intros Hname. unfold determine_github_branch.
    by rewrite bool_decide_eq_true_2.
  - intros base_ref Hname Hbase Hne. unfold determine_github_branch.
    rewrite bool_decide_eq_false_2, Hbase by done. by destruct base_ref.
  - intros ref_name Hname Hbase Htype.
    rewrite (determine_github_branch_ref _ _ Hname Hbase).
    by rewrite (getitem_Some _ _ _ Htype).
Qed.

Lemma determine_github_branch_priority_witness :
  determine_github_branch ∅ = Return "main" ∧
  determine_github_branch
    (list_to_map [("GITHUB_REF_NAME", "17/merge");
                  ("GITHUB_REF_TYPE", "branch");
                  ("GITHUB_BASE_REF", "stable/1.0")]) = Return "stable/1.0" ∧
  determine_github_branch
    (list_to_map [("GITHUB_REF_NAME", "feature-x");
                  ("GITHUB_REF_TYPE", "branch");
                  ("GITHUB_BASE_REF", "")]) = Return "feature-x".
Proof.
  split; [|split].
  - apply (proj1 (determine_github_branch_priority ∅)). reflexivity.
  - eapply (proj1 (proj2 (determine_github_branch_priority _)));
      [vm_compute; discriminate | vm_compute; reflexivity | discriminate].
  - eapply (proj2 (proj2 (determine_github_branch_priority _)));
      [vm_compute; reflexivity | right; vm_compute; reflexivity
      | vm_compute; reflexivity].
Defined.

(** C2: on a build of a release tag, where [GITHUB_REF_NAME] is set,
    [GITHUB_BASE_REF] is absent or empty and [GITHUB_REF_TYPE] has a value
    other than ["branch"], a reference name that starts with
    [<major>.<minor>] yields ["stable/<major>.<minor>"]; [minor] is the
    whole number, what follows it does not start with a digit. *)
Theorem determine_github_branch_tag (environ : gmap string string)
    (ref_type major minor rest : string) :
  environ !! "GITHUB_REF_NAME" = Some (major +:+ "." +:+ minor +:+ rest) →
  (environ !! "GITHUB_BASE_REF" = None ∨
   environ !! "GITHUB_BASE_REF" = Some "") →
  environ !! "GITHUB_REF_TYPE" = Some ref_type → ref_type ≠ "branch" →
  number major → number minor → starts_with_digit rest = false →
  determine_github_branch environ
  = Return ("stable/" +:+ major +:+ "." +:+ minor).
Proof.
  intros Hname Hbase Htype Hne Hmaj Hmin Hrest.
  rewrite (determine_github_branch_ref _ _ Hname Hbase).
  rewrite (getitem_Some _ _ _ Htype). simpl.
  destruct (String.eqb_spec ref_type "branch") as [|_]; [done|].
  by rewrite re_match_version_prefix.
Qed.

Lemma determine_github_branch_tag_witness :
  determine_github_branch
    (list_to_map [("GITHUB_REF_NAME", "1.2.3"); ("GITHUB_REF_TYPE", "tag")])
  = Return "stable/1.2" ∧
  determine_github_branch
    (list_to_map [("GITHUB_REF_NAME", "1.2.3rc1"); ("GITHUB_REF_TYPE", "tag");
                  ("GITHUB_BASE_REF", "")])
  = Return "stable/1.2".
Proof.
  split.
  - apply (determine_github_branch_tag _ "tag" "1" "2" ".3");
      [vm_compute; reflexivity | left; vm_compute; reflexivity
      | vm_compute; reflexivity | discriminate
      | by split | by split | reflexivity].
  - apply (determine_github_branch_tag _ "tag" "1" "2" ".3rc1");
      [vm_compute; reflexivity | right; vm_compute; reflexivity
      | vm_compute; reflexivity | discriminate
      | by split | by split | reflexivity].
Defined.

(** C5: when the tag step is reached ([GITHUB_REF_NAME] set,
    [GITHUB_BASE_REF] absent or empty, [GITHUB_REF_TYPE] not ["branch"]) and
    the reference name does not start with [<digits>.<digits>], the call
    raises: no branch name is returned. *)
Theorem determine_github_branch_malformed_tag
    (environ : gmap string string) (ref_name : string) :
  environ !! "GITHUB_REF_NAME" = Some ref_name →
  (environ !! "GITHUB_BASE_REF" = None ∨
   environ !! "GITHUB_BASE_REF" = Some "") →
  environ !! "GITHUB_REF_TYPE" ≠ Some "branch" →
  ¬ has_version_prefix ref_name →
  raises (determine_github_branch environ).
Proof.
  intros Hname Hbase Htype Hno.
  rewrite (determine_github_branch_ref _ _ Hname Hbase).
  destruct (environ !! "GITHUB_REF_TYPE") as [ref_type|] eqn:Hty.
  - rewrite (getitem_Some _ _ _ Hty). simpl.
    destruct (String.eqb_spec ref_type "branch") as [->|_]; [done|].
    apply re_match_version_None in Hno as ->. by eexists.
  - rewrite (getitem_None _ _ Hty). by eexists.
Qed.

Lemma no_version_prefix_notaversion : ¬ has_version_prefix "notaversion".
Proof. by apply re_match_version_None. Qed.

Lemma determine_github_branch_malformed_tag_witness :
  raises (determine_github_branch
            (list_to_map [("GITHUB_REF_NAME", "notaversion");
                          ("GITHUB_REF_TYPE", "tag")])).
Proof.
  apply (determine_github_branch_malformed_tag _ "notaversion");
    [vm_compute; reflexivity | left; vm_compute; reflexivity
    | vm_compute; discriminate | apply no_version_prefix_notaversion].
Defined.

(** C8, as the code has it: [determine_github_branch] returns a string
    for every environment but two kinds, both with [GITHUB_REF_NAME] set and
    [GITHUB_BASE_REF] absent or empty: those without [GITHUB_REF_TYPE],
    whose lookup raises, and those of a tag ([GITHUB_REF_TYPE] other than
    ["branch"]) whose name lacks a leading [<digits>.<digits>]. *)
Theorem determine_github_branch_returns (environ : gmap string string) :
  returns (determine_github_branch environ) ↔
  ¬ ∃ ref_name,
      environ !! "GITHUB_REF_NAME" = Some ref_name ∧
      (environ !! "GITHUB_BASE_REF" = None ∨
       environ !! "GITHUB_BASE_REF" = Some "") ∧
      (environ !! "GITHUB_REF_TYPE" = None ∨
       environ !! "GITHUB_REF_TYPE" ≠ Some "branch" ∧
       ¬ has_version_prefix ref_name).
Proof.
  split.
  - intros [branch Hret] (ref_name & Hname & Hbase & Hfail).
    rewrite (determine_github_branch_ref _ _ Hname Hbase) in Hret.
    destruct Hfail as [Hty | [Hty Hno]].
    + by rewrite (getitem_None _ _ Hty) in Hret.
    + destruct (environ !! "GITHUB_REF_TYPE") as [ref_type|] eqn:Htype;
        [|by rewrite (getitem_None _ _ Htype) in Hret].
      rewrite (getitem_Some _ _ _ Htype) in Hret. simpl in Hret.
      destruct (String.eqb_spec ref_type "branch") as [Heq|_];
        [congruence|].
      apply re_match_version_None in Hno. by rewrite Hno in Hret.
  - intros Hok.
    destruct (environ !! "GITHUB_REF_NAME") as [ref_name|] eqn:Hname; last first.
    { exists "main". unfold determine_github_branch.
      by rewrite Hname, bool_decide_eq_true_2. }
    destruct (environ !! "GITHUB_BASE_REF") as [[|c base_ref]|] eqn:Hbase.
    2:{ exists (String c base_ref). unfold determine_github_branch.
        by rewrite Hname, Hbase, bool_decide_eq_false_2. }
    all: rewrite (determine_github_branch_ref _ ref_name) by auto.
    all: destruct (environ !! "GITHUB_REF_TYPE") as [ref_type|] eqn:Hty;
      [|destruct Hok; exists ref_name; auto].
    all: rewrite (getitem_Some _ _ _ Hty); simpl.
    all: destruct (String.eqb_spec ref_type "branch") as [->|Hne];
      [by eexists|].
    all: destruct (re_match_version ref_name) as [text|] eqn:Hre;
      [by eexists|].
    all: destruct Hok; exists ref_name; split; [done|]; split; [auto|].
    all: right; split; [congruence | by apply re_match_version_None].
Qed.

Lemma version_prefix_1_2_3 : has_version_prefix "1.2.3".
Proof. exists "1", "2", ".3". by repeat split. Qed.

(** The claim of C8 fails where [GITHUB_REF_NAME] is a well-formed tag and
    [GITHUB_REF_TYPE] is not set. *)
Lemma determine_github_branch_never_fails_counterexample :
  ¬ ∀ environ : gmap string string,
      ¬ (∃ ref_name, environ !! "GITHUB_REF_NAME" = Some ref_name ∧
                     ¬ has_version_prefix ref_name) →
      returns (determine_github_branch environ).
Proof.
  intros Hclaim.
  destruct (Hclaim {["GITHUB_REF_NAME" := "1.2.3"]}) as [branch Hret].
  - intros (ref_name & Hname & Hno). vm_compute in Hname.
    injection Hname as <-. apply Hno, version_prefix_1_2_3.
  - vm_compute in Hret. discriminate.
Qed.

(** ** Paths *)

Lemma relative_to_under (p other : PurePath) :
  under other p →
  ∃ rel, relative_to p other = Return rel ∧ root rel = "" ∧
         names p = names other ++ names rel.
Proof.
  intros Hunder. unfold relative_to.
  rewrite bool_decide_eq_true_2 by done. eexists; split; [done|].
  split; [done|]. destruct Hunder as [_ [k ->]]. simpl.
  by rewrite drop_app_length.
Qed.

Lemma relative_to_not_under (p other : PurePath) :
  ¬ under other p → relative_to p other = Raise ValueError.
Proof. intros Hno. unfold relative_to. by rewrite bool_decide_eq_false_2. Qed.

(** ** Symbol links *)

Lemma str_split_nonempty (sep : ascii) (s : string) : str_split sep s ≠ [].
Proof.
  induction s as [|c s IH]; simpl; [done|].
  destruct (Ascii.eqb c sep); [done|]. by destruct (str_split sep s).
Qed.

Section SourceLinkProperties.
Context {obj : Type} `{!Inspect obj}.
Implicit Types (o target : obj) (path : list string) (p : process obj).

(** The loop is the traversal of the specification with the validation
    of every object met. *)
Lemma traverse_chain o path target :
  getattr_chain o path = Return target →
  traverse o path = Return (if all_valid o path then Some target else None).
Proof.
  revert o. induction path as [|part path IH]; intros o; simpl.
  - by intros [= ->].
  - destruct (getattr o part) as [o'|e]; simpl; [|done].
    intros Hchain. destruct (is_valid_code_object o'); simpl; [auto|done].
Qed.


Lemma traverse_app o pre post :
  traverse o (pre ++ post) =
    (reached ← traverse o pre;
     match reached with
     | Some o' => traverse o' post
     | None => Return None
     end).
Proof.
  revert o. induction pre as [|part pre IH]; intros o; simpl; [done|].
  destruct (getattr o part) as [o'|e]; simpl; [|done].
  destruct (is_valid_code_object o'); simpl; [auto|done].
Qed.

(** The last object of a path that is valid throughout is valid. *)
Lemma all_valid_last o path target :
  path ≠ [] → getattr_chain o path = Return target →
  all_valid o path = true → is_valid_code_object target = true.
Proof.
  revert o. induction path as [|part path IH]; intros o Hne; simpl; [done|].
  destruct (getattr o part) as [o'|e]; simpl; [|done].
  intros Hchain [Ho' Hrest]%andb_prop.
  destruct path as [|part' path]; [by simplify_eq/=|]. by apply (IH o').
Qed.

(** The function once the domain, the module and the name are known. *)
Lemma linkcode_resolve_py p info module_name module fullname :
  info !! "module" = Some module_name →
  sys_modules p !! module_name = Some module →
  info !! "fullname" = Some fullname →
  linkcode_resolve p "py" info =
    (reached ← traverse module (str_split "." fullname);
     match reached with
     | Some o => link_to_object p o
     | None => Return None
     end).
Proof.
  intros Hmod Hloaded Hname. unfold linkcode_resolve. simpl.
  rewrite (getitem_Some _ _ _ Hmod). simpl.
  by rewrite Hloaded, (getitem_Some _ _ _ Hname).
Qed.

Lemma link_to_object_url p o full_file_name file_name linespec :
  getsourcefile o = Return (Some full_file_name) →
  str_in "qiskit" full_file_name = true →
  relative_to (path_of full_file_name) (repo_root p) = Return file_name →
  linespec_of o = Return linespec →
  link_to_object p o
  = Return (Some (github_url (GITHUB_BRANCH p) file_name linespec)).
Proof.
  intros Hfile Hin Hrel Hspec. unfold link_to_object.
  by rewrite Hfile; simpl; rewrite Hin; simpl; rewrite Hrel; simpl;
    rewrite Hspec.
Qed.

Lemma link_to_object_Some p o url :
  link_to_object p o = Return (Some url) →
  ∃ full_file_name file_name linespec,
    getsourcefile o = Return (Some full_file_name) ∧
    str_in "qiskit" full_file_name = true ∧
    relative_to (path_of full_file_name) (repo_root p) = Return file_name ∧
    linespec_of o = Return linespec ∧
    url = github_url (GITHUB_BRANCH p) file_name linespec.
Proof.
  unfold link_to_object.
  destruct (getsourcefile o) as [[full_file_name|]|e]; simpl; [|done..].
  destruct (str_in "qiskit" full_file_name) eqn:Hin; simpl; [|done].
  destruct (relative_to _ _) as [file_name|e] eqn:Hrel; simpl; [|done].
  destruct (linespec_of o) as [linespec|e] eqn:Hspec; simpl; [|done].
  intros [= <-]. by eexists _, _, _.
Qed.

Lemma linespec_of_Return o linespec :
  linespec_of o = Return linespec ↔
  (∃ source lineno,
     getsourcelines o = Return (source, lineno) ∧
     linespec = "#L" +:+ pretty lineno +:+ "-L"
                +:+ pretty (lineno + Z.of_nat (length source) - 1)%Z) ∨
  (getsourcelines o = Raise OSError ∧ linespec = "").
Proof.
  unfold linespec_of. destruct (getsourcelines o) as [[source lineno]|e].
  - split.
    + intros [= <-]. left. by eexists _, _.
    + intros [(? & ? & [= <- <-] & ->) | [? _]]; done.
  - split.
    + destruct e; try done. intros [= <-]. by right.
    + intros [(? & ? & ? & _) | [[= ->] ->]]; done.
Qed.
(** C3, as the code has it: the validation is part of the loop.  Every
    object that the traversal reaches, intermediate or final, has to be
    a class, a method or a function that is not built in; when one of
    them is not, the function returns null.  When all of them are, the
    final object is such an object, and a URL is returned for it if its
    source file names the package and lies under the repository root
    (and no error other than an I/O error comes from reading its
    source lines). *)
Theorem linkcode_resolve_validates_each_object
    p info module_name module fullname target :
  info !! "module" = Some module_name →
  sys_modules p !! module_name = Some module →
  info !! "fullname" = Some fullname →
  getattr_chain module (str_split "." fullname) = Return target →
  (all_valid module (str_split "." fullname) = false →
   linkcode_resolve p "py" info = Return None) ∧
  (all_valid module (str_split "." fullname) = true →
   is_valid_code_object target = true ∧
   ∀ full_file_name file_name linespec,
     getsourcefile target = Return (Some full_file_name) →
     str_in "qiskit" full_file_name = true →
     relative_to (path_of full_file_name) (repo_root p)
     = Return file_name →
     linespec_of target = Return linespec →
     linkcode_resolve p "py" info
     = Return (Some (github_url (GITHUB_BRANCH p) file_name linespec))).
Proof.
  intros Hmod Hloaded Hname Hchain.
  rewrite (linkcode_resolve_py _ _ _ _ _ Hmod Hloaded Hname).
  rewrite (traverse_chain _ _ _ Hchain).
  split; intros Hvalid; rewrite Hvalid; simpl; [done|]. split.
  - by apply (all_valid_last module (str_split "." fullname));
      [apply str_split_nonempty | |].
  - intros full_file_name file_name linespec Hfile Hin Hrel Hspec.
    by apply (link_to_object_url _ _ full_file_name).
Qed.


(** C6, as the code has it: when a component of [info.fullname] is not an
    attribute of the object reached so far, and every object reached up
    to there is a class, a method or a function that is not built in,
    the [AttributeError] leaves [linkcode_resolve]. *)
Theorem linkcode_resolve_missing_attribute
    p info module_name module fullname pre part post o :
  info !! "module" = Some module_name →
  sys_modules p !! module_name = Some module →
  info !! "fullname" = Some fullname →
  str_split "." fullname = pre ++ part :: post →
  getattr_chain module pre = Return o →
  all_valid module pre = true →
  getattr o part = Raise AttributeError →
  linkcode_resolve p "py" info = Raise AttributeError.
Proof.
  intros Hmod Hloaded Hname Hsplit Hchain Hvalid Hmissing.
  rewrite (linkcode_resolve_py _ _ _ _ _ Hmod Hloaded Hname).
  rewrite Hsplit, traverse_app, (traverse_chain _ _ _ Hchain), Hvalid.
  simpl. by rewrite Hmissing.
Qed.

(** C7: the function produces a link exactly when the loop ends on an
    object whose source file names the package and lies under the
    parent of the parent of the configuration file.  The link is
    [https://github.com/Qiskit/qiskit/tree/<branch>/<file>], with the file
    relative to that directory, followed by [#L<start>-L<end>] with
    [end = start + len(lines) - 1], or by nothing when
    [inspect.getsourcelines] raises [OSError]. *)
Theorem linkcode_resolve_url p domain info url :
  linkcode_resolve p domain info = Return (Some url) ↔
  ∃ module_name module fullname target full_file_name file_name linespec,
    domain = "py" ∧
    info !! "module" = Some module_name ∧
    sys_modules p !! module_name = Some module ∧
    info !! "fullname" = Some fullname ∧
    traverse module (str_split "." fullname) = Return (Some target) ∧
    getsourcefile target = Return (Some full_file_name) ∧
    str_in "qiskit" full_file_name = true ∧
    relative_to (path_of full_file_name)
                (parent (parent (path_of (conf_file p))))
    = Return file_name ∧
    ((∃ source lineno,
        getsourcelines target = Return (source, lineno) ∧
        linespec = "#L" +:+ pretty lineno +:+ "-L"
                   +:+ pretty (lineno + Z.of_nat (length source) - 1)%Z) ∨
     (getsourcelines target = Raise OSError ∧ linespec = "")) ∧
    url = "https://github.com/Qiskit/qiskit/tree/" +:+ GITHUB_BRANCH p
          +:+ "/" +:+ path_str file_name +:+ linespec.
Proof.
  split.
  - unfold linkcode_resolve.
    destruct (String.eqb_spec domain "py") as [->|]; simpl; [|done].
    destruct (info !! "module") as [module_name|] eqn:Hmod;
      [rewrite (getitem_Some _ _ _ Hmod) | rewrite (getitem_None _ _ Hmod)];
      simpl; [|done].
    destruct (sys_modules p !! module_name) as [module|] eqn:Hloaded;
      [|done].
    destruct (info !! "fullname") as [fullname|] eqn:Hname;
      [rewrite (getitem_Some _ _ _ Hname) | rewrite (getitem_None _ _ Hname)];
      simpl; [|done].
    destruct (traverse module _) as [[target|]|e] eqn:Hloop; simpl;
      [|done..].
    intros (full_file_name & file_name & linespec & Hfile & Hin & Hrel
            & Hspec%linespec_of_Return & ->)%link_to_object_Some.
    by exists module_name, module, fullname, target, full_file_name,
      file_name, linespec.
  - intros (module_name & module & fullname & target & full_file_name
            & file_name & linespec & -> & Hmod & Hloaded & Hname & Hloop
            & Hfile & Hin & Hrel & Hspec%linespec_of_Return & ->).
    rewrite (linkcode_resolve_py _ _ _ _ _ Hmod Hloaded Hname), Hloop.
    simpl. by rewrite (link_to_object_url _ _ _ _ _ Hfile Hin Hrel Hspec).
Qed.

(** C10: when the object passes the validation and the path of its
    source file contains ["qiskit"] but does not lie under the parent of
    the parent of the configuration file, [relative_to] raises
    [ValueError] and the function raises it in turn. *)
Theorem linkcode_resolve_outside_root
    p info module_name module fullname target full_file_name :
  info !! "module" = Some module_name →
  sys_modules p !! module_name = Some module →
  info !! "fullname" = Some fullname →
  getattr_chain module (str_split "." fullname) = Return target →
  all_valid module (str_split "." fullname) = true →
  getsourcefile target = Return (Some full_file_name) →
  str_in "qiskit" full_file_name = true →
  ¬ under (parent (parent (path_of (conf_file p))))
          (path_of full_file_name) →
  linkcode_resolve p "py" info = Raise ValueError.
Proof.
  intros Hmod Hloaded Hname Hchain Hvalid Hfile Hin Hout.
  rewrite (linkcode_resolve_py _ _ _ _ _ Hmod Hloaded Hname).
  rewrite (traverse_chain _ _ _ Hchain), Hvalid. simpl.
  unfold link_to_object, repo_root. rewrite Hfile. simpl. rewrite Hin.
  simpl. by rewrite (relative_to_not_under _ _ Hout).
Qed.
End SourceLinkProperties.

(** ** The properties at work in the small world *)

Lemma linkcode_resolve_validates_each_object_witness :
  linkcode_resolve Demo.proc "py"
    (Demo.py_info "qiskit.circuit" "library.XGate") = Return None ∧
  linkcode_resolve Demo.proc "py"
    (Demo.py_info "qiskit.circuit" "QuantumCircuit.h")
  = Return (Some "https://github.com/Qiskit/qiskit/tree/stable/1.1/qiskit/circuit/quantumcircuit.py#L51-L52").
Proof.
  split.
  - refine (proj1 (linkcode_resolve_validates_each_object Demo.proc
      (Demo.py_info "qiskit.circuit" "library.XGate")
      "qiskit.circuit" Demo.mod_circuit "library.XGate" Demo.cls_XGate
      _ _ _ _) _); vm_compute; reflexivity.
  - refine (proj2 (proj2 (linkcode_resolve_validates_each_object Demo.proc
      (Demo.py_info "qiskit.circuit" "QuantumCircuit.h")
      "qiskit.circuit" Demo.mod_circuit "QuantumCircuit.h" Demo.fn_h
      _ _ _ _) _)
      "/home/dev/qiskit/qiskit/circuit/quantumcircuit.py"
      (mkPath "" ["qiskit"; "circuit"; "quantumcircuit.py"]) "#L51-L52"
      _ _ _ _); vm_compute; reflexivity.
Defined.

(** The claim of C3 fails on [library.XGate] looked up from
    [qiskit.circuit]: the class is linkable and its file qualifies, but the
    module [library] on the way to it is not a class, a method or a
    function. *)
Lemma linkcode_resolve_final_only_counterexample :
  ¬ ∀ (p : process Demo.pyobj) info module_name module fullname target
      full_file_name file_name linespec,
      info !! "module" = Some module_name →
      sys_modules p !! module_name = Some module →
      info !! "fullname" = Some fullname →
      getattr_chain module (str_split "." fullname) = Return target →
      is_valid_code_object target = true →
      getsourcefile target = Return (Some full_file_name) →
      str_in "qiskit" full_file_name = true →
      relative_to (path_of full_file_name) (repo_root p) = Return file_name →
      linespec_of target = Return linespec →
      linkcode_resolve p "py" info
      = Return (Some (github_url (GITHUB_BRANCH p) file_name linespec)).
Proof.
  intros Hclaim.
  assert (linkcode_resolve Demo.proc "py"
            (Demo.py_info "qiskit.circuit" "library.XGate")
          = Return (Some (github_url "stable/1.1"
              (mkPath "" ["qiskit"; "circuit"; "library"; "x.py"])
              "#L10-L11"))) as Hurl.
  { apply (Hclaim Demo.proc _ "qiskit.circuit" Demo.mod_circuit
      "library.XGate" Demo.cls_XGate
      "/home/dev/qiskit/qiskit/circuit/library/x.py");
      vm_compute; reflexivity. }
  vm_compute in Hurl. discriminate.
Qed.


Lemma linkcode_resolve_missing_attribute_witness :
  linkcode_resolve Demo.proc "py"
    (Demo.py_info "qiskit.circuit" "QuantumCircuit.nope")
  = Raise AttributeError.
Proof.
  apply (linkcode_resolve_missing_attribute Demo.proc
    (Demo.py_info "qiskit.circuit" "QuantumCircuit.nope")
    "qiskit.circuit" Demo.mod_circuit "QuantumCircuit.nope"
    ["QuantumCircuit"] "nope" [] Demo.cls_QuantumCircuit);
    vm_compute; reflexivity.
Defined.

(** The claim of C6 fails on [library.nope] looked up from
    [qiskit.circuit]: [nope] is not an attribute of the module [library]
    that the traversal has reached, and the function returns null. *)
Lemma linkcode_resolve_missing_attribute_counterexample :
  ¬ ∀ (p : process Demo.pyobj) info module_name module fullname
      pre part post o,
      info !! "module" = Some module_name →
      sys_modules p !! module_name = Some module →
      info !! "fullname" = Some fullname →
      str_split "." fullname = pre ++ part :: post →
      getattr_chain module pre = Return o →
      getattr o part = Raise AttributeError →
      linkcode_resolve p "py" info = Raise AttributeError.
Proof.
  intros Hclaim.
  assert (linkcode_resolve Demo.proc "py"
            (Demo.py_info "qiskit.circuit" "library.nope")
          = Raise AttributeError) as Hraise.
  { apply (Hclaim Demo.proc _ "qiskit.circuit" Demo.mod_circuit
      "library.nope" ["library"] "nope" [] Demo.mod_library);
      vm_compute; reflexivity. }
  vm_compute in Hraise. discriminate.
Qed.

Lemma linkcode_resolve_url_witness :
  linkcode_resolve Demo.proc "py"
    (Demo.py_info "qiskit.circuit" "QuantumCircuit")
  = Return (Some "https://github.com/Qiskit/qiskit/tree/stable/1.1/qiskit/circuit/quantumcircuit.py#L47-L52") ∧
  linkcode_resolve Demo.proc "py"
    (Demo.py_info "qiskit.circuit" "get_version")
  = Return (Some "https://github.com/Qiskit/qiskit/tree/stable/1.1/qiskit/version.py").
Proof.
  split.
  - apply (proj2 (linkcode_resolve_url Demo.proc "py"
      (Demo.py_info "qiskit.circuit" "QuantumCircuit") _)).
    exists "qiskit.circuit", Demo.mod_circuit, "QuantumCircuit",
      Demo.cls_QuantumCircuit,
      "/home/dev/qiskit/qiskit/circuit/quantumcircuit.py",
      (mkPath "" ["qiskit"; "circuit"; "quantumcircuit.py"]), "#L47-L52".
    repeat split; try (vm_compute; reflexivity). left.
    eexists _, _. split; vm_compute; reflexivity.
  - apply (proj2 (linkcode_resolve_url Demo.proc "py"
      (Demo.py_info "qiskit.circuit" "get_version") _)).
    exists "qiskit.circuit", Demo.mod_circuit, "get_version",
      Demo.fn_stripped, "/home/dev/qiskit/qiskit/version.py",
      (mkPath "" ["qiskit"; "version.py"]), "".
    repeat split; try (vm_compute; reflexivity). right.
    split; vm_compute; reflexivity.
Defined.

Lemma linkcode_resolve_outside_root_witness :
  linkcode_resolve Demo.proc "py" (Demo.py_info "qiskit.providers" "Backend")
  = Raise ValueError.
Proof.
  apply (linkcode_resolve_outside_root Demo.proc
    (Demo.py_info "qiskit.providers" "Backend")
    "qiskit.providers" Demo.mod_installed "Backend" Demo.cls_Backend
    "/usr/lib/python3/site-packages/qiskit/providers/backend.py");
    try (vm_compute; reflexivity).
  intros [_ [rest Hrest]]. vm_compute in Hrest. discriminate.
Defined.

(** * Further properties *)

(** ** Branch resolution *)

Lemma version_prefix_starts_with_digit (s : string) :
  has_version_prefix s → starts_with_digit s = true.
Proof.
  intros (major & minor & rest & [Hne Hds] & _ & ->).
  destruct major as [|c major]; [done|]. simpl in Hds.
  apply andb_prop in Hds as [Hc _]. by rewrite app_cons.
Qed.

(** What the code past the early returns yields, by cases on the
    reference type and on the match. *)
Lemma determine_github_branch_ref_cases (environ : gmap string string)
    (ref_name : string) :
  environ !! "GITHUB_REF_NAME" = Some ref_name → no_base_ref environ →
  determine_github_branch environ =
    match environ !! "GITHUB_REF_TYPE" with
    | None => Raise KeyError
    | Some ref_type =>
        if String.eqb ref_type "branch" then Return ref_name
        else match re_match_version ref_name with
             | Some text => Return ("stable/" +:+ text)
             | None => Raise AttributeError
             end
    end.
Proof.
  intros Hname Hbase.
  rewrite (determine_github_branch_ref _ _ Hname Hbase). unfold getitem.
  destruct (environ !! "GITHUB_REF_TYPE") as [ref_type|]; simpl; [|done].
  destruct (String.eqb ref_type "branch"); [done|].
  by destruct (re_match_version ref_name).
Qed.

Lemma base_ref_cases (environ : gmap string string) :
  no_base_ref environ ∨
  ∃ base_ref, environ !! "GITHUB_BASE_REF" = Some base_ref ∧ base_ref ≠ "".
Proof.
  unfold no_base_ref.
  destruct (environ !! "GITHUB_BASE_REF") as [[|c base_ref]|]; eauto.
Qed.

Lemma determine_github_branch_base (environ : gmap string string)
    (base_ref : string) :
  environ !! "GITHUB_REF_NAME" ≠ None →
  environ !! "GITHUB_BASE_REF" = Some base_ref → base_ref ≠ "" →
  determine_github_branch environ = Return base_ref.
Proof.
  intros Hname Hbase Hne. unfold determine_github_branch.
  rewrite bool_decide_eq_false_2, Hbase by done. by destruct base_ref.
Qed.

(** X1: the branch names that [determine_github_branch] can return, and
    when: ["main"] without [GITHUB_REF_NAME]; a non-empty [GITHUB_BASE_REF];
    the reference name of a branch build; ["stable/<major>.<minor>"] for a
    tag whose name starts with [<major>.<minor>], [minor] being all the
    digits that follow the dot.  Nothing else is ever returned. *)
Theorem determine_github_branch_Return (environ : gmap string string)
    (branch : string) :
  determine_github_branch environ = Return branch ↔
  (environ !! "GITHUB_REF_NAME" = None ∧ branch = "main") ∨
  (environ !! "GITHUB_REF_NAME" ≠ None ∧
   environ !! "GITHUB_BASE_REF" = Some branch ∧ branch ≠ "") ∨
  (environ !! "GITHUB_REF_NAME" = Some branch ∧ no_base_ref environ ∧
   environ !! "GITHUB_REF_TYPE" = Some "branch") ∨
  (∃ ref_type major minor rest,
     environ !! "GITHUB_REF_NAME" = Some (major +:+ "." +:+ minor +:+ rest) ∧
     no_base_ref environ ∧
     environ !! "GITHUB_REF_TYPE" = Some ref_type ∧ ref_type ≠ "branch" ∧
     number major ∧ number minor ∧ starts_with_digit rest = false ∧
     branch = "stable/" +:+ major +:+ "." +:+ minor).
Proof.
  split.
  - destruct (environ !! "GITHUB_REF_NAME") as [ref_name|] eqn:Hname;
      last first.
    { unfold determine_github_branch.
      rewrite Hname, bool_decide_eq_true_2 by done. intros [= <-]. by left. }
    destruct (base_ref_cases environ) as [Hbase | (base_ref & Hbase & Hne)].
    + rewrite (determine_github_branch_ref_cases _ _ Hname Hbase).
      destruct (environ !! "GITHUB_REF_TYPE") as [ref_type|] eqn:Hty; [|done].
      destruct (String.eqb_spec ref_type "branch") as [->|Hnb].
      { intros [= <-]. by right; right; left. }
      destruct (re_match_version ref_name) as [text|] eqn:Hre; [|done].
      intros [= <-]. right; right; right.
      apply re_match_version_Some in Hre
        as (major & minor & rest & ? & ? & ? & -> & ->).
      by exists ref_type, major, minor, rest.
    + rewrite (determine_github_branch_base _ base_ref) by (done || congruence).
      intros [= <-]. by right; left.
  - intros [[Hname ->] | [(Hname & Hbase & Hne)
      | [(Hname & Hbase & Hty)
      | (ref_type & major & minor & rest & Hname & Hbase & Hty & Hnb & Hmaj
         & Hmin & Hrest & ->)]]].
    + unfold determine_github_branch. by rewrite bool_decide_eq_true_2.
    + by apply determine_github_branch_base.
    + by rewrite (determine_github_branch_ref_cases _ _ Hname Hbase), Hty.
    + rewrite (determine_github_branch_ref_cases _ _ Hname Hbase), Hty.
      destruct (String.eqb_spec ref_type "branch") as [|_]; [done|].
      by rewrite re_match_version_prefix.
Qed.

(** X2: the exceptions of [determine_github_branch].  It raises [KeyError]
    exactly when [GITHUB_REF_NAME] is set, [GITHUB_BASE_REF] is absent or
    empty and [GITHUB_REF_TYPE] is not set; it raises [AttributeError]
    exactly when the first two hold, [GITHUB_REF_TYPE] has a value other
    than ["branch"] and the reference name has no leading
    [<digits>.<digits>]; it raises nothing else. *)
Theorem determine_github_branch_Raise (environ : gmap string string) :
  (determine_github_branch environ = Raise KeyError ↔
   environ !! "GITHUB_REF_NAME" ≠ None ∧ no_base_ref environ ∧
   environ !! "GITHUB_REF_TYPE" = None) ∧
  (determine_github_branch environ = Raise AttributeError ↔
   ∃ ref_name ref_type,
     environ !! "GITHUB_REF_NAME" = Some ref_name ∧ no_base_ref environ ∧
     environ !! "GITHUB_REF_TYPE" = Some ref_type ∧ ref_type ≠ "branch" ∧
     ¬ has_version_prefix ref_name) ∧
  (∀ e, determine_github_branch environ = Raise e →
        e = KeyError ∨ e = AttributeError).
Proof.
  destruct (environ !! "GITHUB_REF_NAME") as [ref_name|] eqn:Hname;
    last first.
  { unfold determine_github_branch.
    rewrite Hname, bool_decide_eq_true_2 by done.
    split; [|split]; [split; [done|by intros [? _]]
                     |split; [done|by intros (? & ? & ? & _)] | done]. }
  destruct (base_ref_cases environ) as [Hbase | (base_ref & Hbase & Hne)];
    last first.
  { rewrite (determine_github_branch_base _ base_ref)
      by (done || congruence).
    split; [|split]; [split; [done|]|split; [done|]|done].
    - intros (_ & [Hno | Hno] & _); congruence.
    - intros (? & ? & _ & [Hno | Hno] & _); congruence. }
  rewrite (determine_github_branch_ref_cases _ _ Hname Hbase).
  destruct (environ !! "GITHUB_REF_TYPE") as [ref_type|] eqn:Hty.
  - destruct (String.eqb_spec ref_type "branch") as [->|Hnb].
    { split; [|split]; [split; [done|by intros (_ & _ & ?)]
                       |split; [done|] | done].
      intros (? & ? & _ & _ & [= <-] & ? & _). done. }
    destruct (re_match_version ref_name) as [text|] eqn:Hre.
    + split; [|split]; [split; [done|by intros (_ & _ & ?)]
                       |split; [done|] | done].
      intros (? & ? & [= <-] & _ & _ & _ & Hno).
      apply re_match_version_None in Hno. congruence.
    + split; [|split];
        [split; [done|by intros (_ & _ & ?)] | | intros e [= <-]; auto].
      split; [|done]. intros _. exists ref_name, ref_type.
      by rewrite <- re_match_version_None.
  - split; [|split]; [done | | intros e [= <-]; auto].
    split; [done|]. by intros (? & ? & _ & _ & ? & _).
Qed.

(** X3: an empty [GITHUB_BASE_REF] counts as none: setting the variable to
    the empty string and removing it give the same outcome. *)
Theorem determine_github_branch_empty_base (environ : gmap string string) :
  determine_github_branch (<["GITHUB_BASE_REF" := ""]> environ)
  = determine_github_branch (delete "GITHUB_BASE_REF" environ).
Proof.
  unfold determine_github_branch, getitem.
  rewrite lookup_insert_eq, lookup_delete_eq.
  by rewrite !lookup_insert_ne, !lookup_delete_ne by done.
Qed.

(** X4: on a tag build, a reference name that is empty or whose first
    character is not a digit, such as a tag with a leading [v], makes
    [determine_github_branch] raise [AttributeError]: the pattern is tried
    at the start of the name only. *)
Theorem determine_github_branch_tag_not_digit
    (environ : gmap string string) (ref_name ref_type : string) :
  environ !! "GITHUB_REF_NAME" = Some ref_name → no_base_ref environ →
  environ !! "GITHUB_REF_TYPE" = Some ref_type → ref_type ≠ "branch" →
  starts_with_digit ref_name = false →
  determine_github_branch environ = Raise AttributeError.
Proof.
  intros Hname Hbase Hty Hnb Hstart.
  rewrite (determine_github_branch_ref_cases _ _ Hname Hbase), Hty.
  destruct (String.eqb_spec ref_type "branch") as [|_]; [done|].
  destruct (re_match_version ref_name) as [text|] eqn:Hre; [|done].
  assert (has_version_prefix ref_name) as Hpre.
  { apply re_match_version_Some in Hre
      as (major & minor & rest & ? & ? & _ & -> & _).
    by exists major, minor, rest. }
  apply version_prefix_starts_with_digit in Hpre. congruence.
Qed.

Lemma determine_github_branch_tag_not_digit_witness :
  determine_github_branch
    (list_to_map [("GITHUB_REF_NAME", "v1.2.3"); ("GITHUB_REF_TYPE", "tag")])
  = Raise AttributeError ∧
  determine_github_branch
    (list_to_map [("GITHUB_REF_NAME", ""); ("GITHUB_REF_TYPE", "tag");
                  ("GITHUB_BASE_REF", "")])
  = Raise AttributeError.
Proof.
  split.
  - apply (determine_github_branch_tag_not_digit _ "v1.2.3" "tag");
      [vm_compute; reflexivity | left; vm_compute; reflexivity
      | vm_compute; reflexivity | discriminate | reflexivity].
  - apply (determine_github_branch_tag_not_digit _ "" "tag");
      [vm_compute; reflexivity | right; vm_compute; reflexivity
      | vm_compute; reflexivity | discriminate | reflexivity].
Defined.

(** ** Splitting and joining *)

Lemma str_join_cons (sep w : string) (l : list string) :
  l ≠ [] → str_join sep (w :: l) = w +:+ sep +:+ str_join sep l.
Proof. by destruct l. Qed.

Lemma str_join_split (sep : ascii) (s : string) :
  str_join (String sep "") (str_split sep s) = s.
Proof.
  induction s as [|c s IH]; simpl; [done|].
  destruct (Ascii.eqb_spec c sep) as [->|Hne].
  - rewrite str_join_cons by apply str_split_nonempty.
    by rewrite app_empty_l, app_cons, app_empty_l, IH.
  - pose proof (str_split_nonempty sep s) as Hnil.
    destruct (str_split sep s) as [|w [|w' ws]]; [done|..].
    + simpl in *. by rewrite IH.
    + rewrite str_join_cons by done. rewrite str_join_cons in IH by done.
      by rewrite app_cons, IH.
Qed.

Lemma str_split_no_char (sep : ascii) (s : string) :
  Forall (λ w, no_char sep w = true) (str_split sep s).
Proof.
  induction s as [|c s IH]; simpl; [by constructor|].
  destruct (Ascii.eqb c sep) eqn:Hc; [by constructor|].
  destruct (str_split sep s) as [|w ws]; [by constructor; simpl; rewrite ?Hc|].
  inversion IH; subst. constructor; [|done]. simpl. by rewrite Hc.
Qed.

Lemma str_split_one (sep : ascii) (w : string) :
  no_char sep w = true → str_split sep w = [w].
Proof.
  induction w as [|c w IH]; simpl; [done|].
  intros [Hc Hw]%andb_prop. apply negb_true_iff in Hc. rewrite Hc.
  by rewrite IH.
Qed.

Lemma str_split_app (sep : ascii) (w t : string) :
  no_char sep w = true →
  str_split sep (w +:+ String sep t) = w :: str_split sep t.
Proof.
  induction w as [|c w IH].
  - intros _. rewrite app_empty_l. simpl. by rewrite Ascii.eqb_refl.
  - simpl no_char. intros [Hc Hw]%andb_prop. apply negb_true_iff in Hc.
    rewrite app_cons. simpl. by rewrite Hc, IH.
Qed.

Lemma str_split_join (sep : ascii) (l : list string) :
  l ≠ [] → Forall (λ w, no_char sep w = true) l →
  str_split sep (str_join (String sep "") l) = l.
Proof.
  induction l as [|w l IH]; [done|]. intros _ Hall.
  inversion Hall as [|? ? Hw Hl]; subst.
  destruct l as [|w' l]; [by apply str_split_one|].
  rewrite str_join_cons by done.
  rewrite app_cons, app_empty_l, str_split_app by done.
  by rewrite IH.
Qed.

(** X5: the parts that the loop of [linkcode_resolve] goes through are the
    fields of the name between the dots.  There is at least one, none of
    them holds the separator, and joining them with the separator gives
    the name back; conversely a non-empty list of separator-free parts is
    what its joined name splits into. *)
Theorem str_split_join_inverse (sep : ascii) :
  (∀ s, str_split sep s ≠ [] ∧
        Forall (λ w, no_char sep w = true) (str_split sep s) ∧
        str_join (String sep "") (str_split sep s) = s) ∧
  (∀ l, l ≠ [] → Forall (λ w, no_char sep w = true) l →
        str_split sep (str_join (String sep "") l) = l).
Proof.
  split.
  - intros s. split; [apply str_split_nonempty|].
    split; [apply str_split_no_char | apply str_join_split].
  - apply str_split_join.
Qed.

Lemma str_split_join_inverse_witness :
  str_join "." (str_split "." "QuantumCircuit.h") = "QuantumCircuit.h" ∧
  str_split "." (str_join "." ["QuantumCircuit"; "h"])
  = ["QuantumCircuit"; "h"].
Proof.
  split.
  - apply (proj1 (str_split_join_inverse ".") "QuantumCircuit.h").
  - apply (proj2 (str_split_join_inverse ".") ["QuantumCircuit"; "h"]);
      [done | by repeat constructor].
Defined.

(** ** Paths written out *)

Lemma component_head (w : string) :
  component w → ∃ c w', w = String c w' ∧ c ≠ "/"%char.
Proof.
  intros (Hne & _ & Hno). destruct w as [|c w']; [done|].
  exists c, w'. split; [done|]. simpl in Hno.
  apply andb_prop in Hno as [Hc _]. apply negb_true_iff in Hc.
  intros ->. by rewrite Ascii.eqb_refl in Hc.
Qed.

Lemma leading_slashes_not_slash (c : ascii) (s : string) :
  c ≠ "/"%char → leading_slashes (String c s) = 0.
Proof.
  intros Hc. destruct c as [[] [] [] [] [] [] [] []]; try done.
Qed.

Lemma filter_components (l : list string) :
  Forall component l → filter (λ x, x ≠ "" ∧ x ≠ ".") l = l.
Proof.
  induction 1 as [|w l (Hne & Hdot & _) _ IH]; [done|].
  rewrite filter_cons_True by done. by rewrite IH.
Qed.

Lemma str_join_components_head (l : list string) :
  Forall component l → l ≠ [] →
  ∃ c s, str_join "/" l = String c s ∧ c ≠ "/"%char.
Proof.
  intros Hall Hne. destruct l as [|w l]; [done|].
  inversion Hall as [|? ? Hw _]; subst.
  destruct (component_head w Hw) as (c & w' & -> & Hc).
  destruct l; simpl; [by eexists _, _|]. rewrite app_cons. by eexists _, _.
Qed.

Lemma path_of_abs_path (l : list string) :
  Forall component l → path_of (abs_path l) = mkPath "/" l.
Proof.
  intros Hall. unfold path_of, abs_path. rewrite app_cons, app_empty_l.
  destruct l as [|w l].
  { done. }
  destruct (str_join_components_head (w :: l) Hall) as (c & s & Hjoin & Hc);
    [done|].
  assert (str_split "/" (str_join "/" (w :: l)) = w :: l) as Hsplit.
  { apply str_split_join; [done|].
    eapply Forall_impl; [done|]. by intros ? (_ & _ & ?). }
  remember (str_join "/" (w :: l)) as joined eqn:Hjoined.
  change (leading_slashes (String "/" joined))
    with (S (leading_slashes joined)).
  change (str_split "/" (String "/" joined))
    with ("" :: str_split "/" joined).
  rewrite Hsplit, Hjoin, (leading_slashes_not_slash c s Hc).
  rewrite filter_cons_False by (by intros [? _]).
  by rewrite filter_components.
Qed.

Lemma parent_parent (r : string) (dirs : list string) (d c : string) :
  parent (parent (mkPath r (dirs ++ [d; c]))) = mkPath r dirs.
Proof.
  unfold parent. simpl. f_equal.
  change (dirs ++ [d; c]) with (dirs ++ [d] ++ [c]).
  by rewrite app_assoc, !removelast_last.
Qed.

Lemma relative_to_app (r : string) (dirs rel : list string) :
  relative_to (mkPath r (dirs ++ rel)) (mkPath r dirs)
  = Return (mkPath "" rel).
Proof.
  unfold relative_to. rewrite bool_decide_eq_true_2.
  - simpl. by rewrite drop_app_length.
  - split; [done|]. by exists rel.
Qed.

Lemma path_str_relative (rel : list string) :
  Forall component rel → rel ≠ [] →
  path_str (mkPath "" rel) = str_join "/" rel.
Proof.
  intros Hall Hne. unfold path_str. simpl. rewrite app_empty_l.
  by destruct (str_join_components_head rel Hall Hne) as (c & s & -> & _).
Qed.

(** ** Symbol links *)

Section MoreSourceLinkProperties.
Context {obj : Type} `{!Inspect obj}.
Implicit Types (o target : obj) (path : list string) (p : process obj).

(** The function by cases on what it reads. *)
Lemma linkcode_resolve_cases p domain info :
  linkcode_resolve p domain info =
    if negb (String.eqb domain "py") then Return None
    else match info !! "module" with
         | None => Raise KeyError
         | Some module_name =>
             match sys_modules p !! module_name with
             | None => Return None
             | Some module =>
                 match info !! "fullname" with
                 | None => Raise KeyError
                 | Some fullname =>
                     match traverse module (str_split "." fullname) with
                     | Return (Some o) => link_to_object p o
                     | Return None => Return None
                     | Raise e => Raise e
                     end
                 end
             end
         end.
Proof.
  unfold linkcode_resolve, getitem.
  destruct (negb (String.eqb domain "py")); [done|].
  destruct (info !! "module") as [module_name|]; simpl; [|done].
  destruct (sys_modules p !! module_name) as [module|]; [|done].
  destruct (info !! "fullname") as [fullname|]; simpl; [|done].
  by destruct (traverse module _) as [[o|]|e].
Qed.

(** The loop stops with null exactly at the first object that is not a
    valid code object. *)
Lemma traverse_None o path :
  traverse o path = Return None ↔
  ∃ pre part post o1 o2,
    path = pre ++ part :: post ∧ traverse o pre = Return (Some o1) ∧
    getattr o1 part = Return o2 ∧ is_valid_code_object o2 = false.
Proof.
  split.
  - revert o. induction path as [|part path IH]; intros o; simpl; [done|].
    destruct (getattr o part) as [o'|e] eqn:Hget; simpl; [|done].
    destruct (is_valid_code_object o') eqn:Hvalid.
    + intros (pre & part' & post & o1 & o2 & -> & Hpre & Hget' & Hinv)%IH.
      exists (part :: pre), part', post, o1, o2. simpl.
      by rewrite Hget; simpl; rewrite Hvalid.
    + intros _. by exists [], part, path, o, o'.
  - intros (pre & part & post & o1 & o2 & -> & Hpre & Hget & Hinv).
    rewrite traverse_app, Hpre. simpl. rewrite Hget. simpl. by rewrite Hinv.
Qed.

Lemma link_to_object_None p o :
  link_to_object p o = Return None ↔
  getsourcefile o = Return None ∨
  ∃ full_file_name,
    getsourcefile o = Return (Some full_file_name) ∧
    str_in "qiskit" full_file_name = false.
Proof.
  unfold link_to_object.
  destruct (getsourcefile o) as [[full_file_name|]|e]; simpl.
  - destruct (str_in "qiskit" full_file_name) eqn:Hin; simpl.
    + destruct (relative_to _ _) as [file_name|e]; simpl;
        [destruct (linespec_of o); simpl|];
        (split; [done|]); intros [? | (? & [= <-] & ?)]; congruence.
    + split; [|done]. intros _. right. by eexists.
  - split; [by left | done].
  - split; [done|]. by intros [? | (? & ? & _)].
Qed.

(** X6: what a missing key of [info] does under the ["py"] domain.
    Without ["module"] the function raises [KeyError].  Without
    ["fullname"] it raises [KeyError] only if the module is loaded: the
    name is read after the module has been found. *)
Theorem linkcode_resolve_missing_key p info :
  (info !! "module" = None →
   linkcode_resolve p "py" info = Raise KeyError) ∧
  (∀ module_name,
     info !! "module" = Some module_name →
     info !! "fullname" = None →
     linkcode_resolve p "py" info
     = match sys_modules p !! module_name with
       | Some _ => Raise KeyError
       | None => Return None
       end).
Proof.
  split.
  - intros Hmod. by rewrite linkcode_resolve_cases, Hmod.
  - intros module_name Hmod Hname. rewrite linkcode_resolve_cases, Hmod.
    simpl. destruct (sys_modules p !! module_name); [|done].
    by rewrite Hname.
Qed.


(** X8: introspection errors are not caught, with one exception.  For an
    object that the loop ended on, whatever [inspect.getsourcefile] raises
    leaves [linkcode_resolve]; once the file is found to lie under the
    repository root, so does whatever [inspect.getsourcelines] raises,
    unless it is [OSError]. *)
Theorem linkcode_resolve_introspection_error
    p info module_name module fullname target e :
  info !! "module" = Some module_name →
  sys_modules p !! module_name = Some module →
  info !! "fullname" = Some fullname →
  traverse module (str_split "." fullname) = Return (Some target) →
  (getsourcefile target = Raise e →
   linkcode_resolve p "py" info = Raise e) ∧
  (∀ full_file_name,
     getsourcefile target = Return (Some full_file_name) →
     str_in "qiskit" full_file_name = true →
     under (repo_root p) (path_of full_file_name) →
     getsourcelines target = Raise e → e ≠ OSError →
     linkcode_resolve p "py" info = Raise e).
Proof.
  intros Hmod Hloaded Hname Hloop.
  rewrite linkcode_resolve_cases, Hmod. simpl.
  rewrite Hloaded, Hname, Hloop. unfold link_to_object. split.
  - by intros ->.
  - intros full_file_name -> Hin Hunder Hlines Hne. simpl. rewrite Hin. simpl.
    destruct (relative_to_under _ _ Hunder) as (rel & -> & _). simpl.
    unfold linespec_of. rewrite Hlines. by destruct e.
Qed.

(** X9: the function returns null for these reasons only: the domain is
    not ["py"]; the module is not loaded; an object reached by the loop,
    all those before it being valid code objects, is not one; no source
    file is found for the object that the loop ended on; or the path of
    that file does not contain ["qiskit"]. *)
Theorem linkcode_resolve_None p domain info :
  linkcode_resolve p domain info = Return None ↔
  domain ≠ "py" ∨
  ∃ module_name,
    info !! "module" = Some module_name ∧
    (sys_modules p !! module_name = None ∨
     ∃ module fullname,
       sys_modules p !! module_name = Some module ∧
       info !! "fullname" = Some fullname ∧
       ((∃ pre part post o1 o2,
           str_split "." fullname = pre ++ part :: post ∧
           traverse module pre = Return (Some o1) ∧
           getattr o1 part = Return o2 ∧
           is_valid_code_object o2 = false) ∨
        (∃ target,
           traverse module (str_split "." fullname) = Return (Some target) ∧
           (getsourcefile target = Return None ∨
            ∃ full_file_name,
              getsourcefile target = Return (Some full_file_name) ∧
              str_in "qiskit" full_file_name = false)))).
Proof.
  rewrite linkcode_resolve_cases.
  destruct (String.eqb_spec domain "py") as [->|Hdom]; simpl;
    [|split; [by left | done]].
  destruct (info !! "module") as [module_name|] eqn:Hmod; last first.
  { split; [done|]. intros [? | (? & ? & _)]; done. }
  destruct (sys_modules p !! module_name) as [module|] eqn:Hloaded;
    last first.
  { split; [|done]. intros _. right. exists module_name. by split; [|left]. }
  destruct (info !! "fullname") as [fullname|] eqn:Hname; last first.
  { split; [done|].
    intros [? | (? & [= <-] & [? | (? & ? & ? & ? & _)])]; congruence. }
  split.
  - intros Hnone. right. exists module_name. split; [done|]. right.
    exists module, fullname. split; [done|]. split; [done|].
    destruct (traverse module _) as [[target|]|e] eqn:Hloop; [| |done].
    + right. exists target. split; [done|].
      by apply (link_to_object_None p target).
    + left. by apply traverse_None.
  - intros [? | (module_name' & Hmod'
      & [Hnot | (module' & fullname' & Hloaded' & Hname' & Hwhy)])];
      [done | congruence |].
    assert (module' = module) as -> by congruence.
    assert (fullname' = fullname) as -> by congruence.
    destruct Hwhy as [Hinv%traverse_None | (target & -> & Hfile)].
    + by rewrite Hinv.
    + by apply (link_to_object_None p target).
Qed.

(** X10: the path in the link is the path of the source file below the
    repository root, component by component.  When the configuration file
    is [/<dirs>/<d>/<c>] and the source file of the object that the loop
    ended on is [/<dirs>/<rel>], all components being plain names, the
    link is [https://github.com/Qiskit/qiskit/tree/<branch>/<rel>] followed
    by the line range. *)
Theorem linkcode_resolve_checkout_file
    p info module_name module fullname target dirs d c rel linespec :
  info !! "module" = Some module_name →
  sys_modules p !! module_name = Some module →
  info !! "fullname" = Some fullname →
  traverse module (str_split "." fullname) = Return (Some target) →
  conf_file p = abs_path (dirs ++ [d; c]) →
  Forall component (dirs ++ [d; c]) →
  getsourcefile target = Return (Some (abs_path (dirs ++ rel))) →
  Forall component rel → rel ≠ [] →
  str_in "qiskit" (abs_path (dirs ++ rel)) = true →
  linespec_of target = Return linespec →
  linkcode_resolve p "py" info
  = Return (Some ("https://github.com/Qiskit/qiskit/tree/"
                  +:+ GITHUB_BRANCH p +:+ "/" +:+ str_join "/" rel
                  +:+ linespec)).
Proof.
  intros Hmod Hloaded Hname Hloop Hconf Hdirs Hfile Hrel Hne Hin Hspec.
  rewrite linkcode_resolve_cases, Hmod. simpl.
  rewrite Hloaded, Hname, Hloop.
  assert (Forall component dirs) as Hdirs'.
  { by apply Forall_app in Hdirs as [? _]. }
  rewrite (link_to_object_url p target _ (mkPath "" rel) linespec Hfile Hin);
    [|unfold repo_root|done].
  - unfold github_url. by rewrite path_str_relative.
  - rewrite Hconf, !path_of_abs_path by (done || by apply Forall_app).
    by rewrite parent_parent, relative_to_app.
Qed.
End MoreSourceLinkProperties.


Lemma linkcode_resolve_missing_key_witness :
  linkcode_resolve Demo.proc "py" ∅ = Raise KeyError ∧
  linkcode_resolve Demo.proc "py" {["module" := "qiskit.circuit"]}
  = Raise KeyError ∧
  linkcode_resolve Demo.proc "py" {["module" := "os"]} = Return None.
Proof.
  split; [|split].
  - refine (proj1 (linkcode_resolve_missing_key Demo.proc ∅) _).
    vm_compute. reflexivity.
  - refine (proj2 (linkcode_resolve_missing_key Demo.proc
      {["module" := "qiskit.circuit"]}) "qiskit.circuit" _ _);
      vm_compute; reflexivity.
  - refine (proj2 (linkcode_resolve_missing_key Demo.proc
      {["module" := "os"]}) "os" _ _); vm_compute; reflexivity.
Defined.

Lemma linkcode_resolve_introspection_error_witness :
  linkcode_resolve Failing.proc "py" (Demo.py_info "builtins" "int")
  = Raise TypeError ∧
  linkcode_resolve Failing.proc "py" (Demo.py_info "qiskit" "Odd")
  = Raise TypeError.
Proof.
  split.
  - refine (proj1 (linkcode_resolve_introspection_error Failing.proc
      (Demo.py_info "builtins" "int") "builtins" Failing.mod_builtins "int"
      Failing.cls_int TypeError _ _ _ _) _); vm_compute; reflexivity.
  - refine (proj2 (linkcode_resolve_introspection_error Failing.proc
      (Demo.py_info "qiskit" "Odd") "qiskit" Failing.mod_pkg "Odd"
      Failing.cls_odd TypeError _ _ _ _)
      "/home/dev/qiskit/qiskit/odd.py" _ _ _ _ _);
      try (vm_compute; reflexivity); [|discriminate].
    split; [vm_compute; reflexivity|]. exists ["qiskit"; "odd.py"].
    vm_compute. reflexivity.
Defined.

Lemma linkcode_resolve_checkout_file_witness :
  linkcode_resolve Demo.proc "py"
    (Demo.py_info "qiskit.circuit.library" "XGate")
  = Return (Some "https://github.com/Qiskit/qiskit/tree/stable/1.1/qiskit/circuit/library/x.py#L10-L11").
Proof.
  refine (linkcode_resolve_checkout_file Demo.proc
    (Demo.py_info "qiskit.circuit.library" "XGate")
    "qiskit.circuit.library" Demo.mod_library "XGate" Demo.cls_XGate
    ["home"; "dev"; "qiskit"] "docs" "conf.py"
    ["qiskit"; "circuit"; "library"; "x.py"] "#L10-L11"
    _ _ _ _ _ _ _ _ _ _ _); try (vm_compute; reflexivity);
    try discriminate; by repeat constructor.
Defined.

(** ** The package test *)

Lemma prefix_true (needle hay : string) :
  String.prefix needle hay = true ↔ ∃ post, hay = needle +:+ post.
Proof.
  revert hay. induction needle as [|a needle IH]; intros hay.
  - split; [|by destruct hay]. intros _. by exists hay.
  - destruct hay as [|b hay]; simpl.
    + split; [done|]. by intros [post Hpost].
    + destruct (ascii_dec a b) as [->|Hne].
      * rewrite IH. split; intros [post Hpost]; exists post.
        -- by rewrite app_cons, <- Hpost.
        -- rewrite app_cons in Hpost. by injection Hpost.
      * split; [done|]. intros [post Hpost]. rewrite app_cons in Hpost.
        by injection Hpost.
Qed.

Lemma str_in_empty (needle : string) :
  str_in needle "" = String.prefix needle "".
Proof. simpl. apply orb_false_r. Qed.

Lemma str_in_cons (needle : string) (c : ascii) (hay : string) :
  str_in needle (String c hay)
  = String.prefix needle (String c hay) || str_in needle hay.
Proof. reflexivity. Qed.

(** X11: the test ["qiskit" in full_file_name] is a test on the text of
    the path, not on its components: it holds exactly when the text
    occurs somewhere in the path, be it inside a longer directory or file
    name. *)
Theorem str_in_occurs (needle hay : string) :
  str_in needle hay = true ↔ ∃ pre post, hay = pre +:+ needle +:+ post.
Proof.
  split.
  - induction hay as [|c hay IH].
    + rewrite str_in_empty. intros [post Hpost]%prefix_true.
      by exists "", post.
    + rewrite str_in_cons.
      intros [[post Hpost]%prefix_true | (pre & post & ->)%IH]%orb_prop.
      * by exists "", post.
      * by exists (String c pre), post.
  - intros (pre & post & ->). induction pre as [|c pre IH].
    + rewrite app_empty_l.
      assert (String.prefix needle (needle +:+ post) = true) as Hpre
        by (apply prefix_true; by exists post).
      destruct (needle +:+ post);
        [by rewrite str_in_empty | by rewrite str_in_cons, Hpre].
    + rewrite app_cons, str_in_cons, IH. apply orb_true_r.
Qed.

Lemma str_in_occurs_witness :
  str_in "qiskit" "/opt/myqiskit-fork/tools/x.py" = true.
Proof.
  apply (proj2 (str_in_occurs "qiskit" "/opt/myqiskit-fork/tools/x.py")).
  by exists "/opt/my", "-fork/tools/x.py".
Defined.

(** ** Calls as steps of the interpreter *)

Section CallProperties.
Context {obj heap : Type} `{!Interp obj heap}.
Implicit Types (o : obj) (h : heap) (p : process obj) (s : state obj heap).






End CallProperties.


(** Where attribute access changes the heap, two calls in a row may
    differ: the first call meets the proxy and returns null, the second
    meets the class and returns its link. *)
Lemma linkcode_resolve_lazy_attribute :
  let '(first, s1) :=
    call_linkcode_resolve "py" Lazy.info
      (mkState Lazy.globals_of_build false) in
  let '(second, s2) := call_linkcode_resolve "py" Lazy.info s1 in
  first = Return None ∧
  second = Return (Some "https://github.com/Qiskit/qiskit/tree/main/qiskit/thing.py#L12-L13") ∧
  s2 = mkState Lazy.globals_of_build true.
Proof. vm_compute. done. Qed.

(** ** A source file that can not be resolved *)

